(** * Hotels read API of drivent: eligibility gate, service and controllers

    A shallow embedding of
      - [src/repositories/user-repository/index.ts]
      - [src/services/hotels-service/index.ts] (and its earlier revision
        [src/unnamed/part_001], which only had [getHotels])
      - [src/controllers/hotels-controller.ts]
    over an explicit model of the Prisma store.  Promises are modelled by a
    small state-and-exception monad: the state is the store together with the
    log of the queries that were issued, an exception is a rejected promise. *)

From Stdlib Require Import ZArith List String Bool Lia Permutation.
From Stdlib Require Import Ascii.
From Stdlib Require DecimalString DecimalZ DecimalPos.
Import ListNotations.
Open Scope string_scope.
Open Scope Z_scope.

(** ** Rows of the store *)

(** Modelled from the spec: the Prisma schema is not part of the sources; the
    rows carry the fields that the service, the tests and the data model of
    the specification mention.  Identifiers and dates are integers. *)

Inductive TicketStatus := RESERVED | PAID.

Definition TicketStatus_eqb (a b : TicketStatus) : bool :=
  match a, b with
  | RESERVED, RESERVED => true
  | PAID, PAID => true
  | _, _ => false
  end.

Record User := { user_id : Z; user_email : string }.

Record Enrollment := { enrollment_id : Z; enrollment_userId : Z }.

Record TicketType := {
  ticketType_id : Z;
  isRemote : bool;
  includesHotel : bool
}.

Record Ticket := {
  ticket_id : Z;
  ticket_ticketTypeId : Z;
  ticket_enrollmentId : Z;
  status : TicketStatus
}.

Record Hotel := {
  hotel_id : Z;
  hotel_name : string;
  hotel_image : string;
  hotel_createdAt : Z;
  hotel_updatedAt : Z
}.

Record Room := {
  room_id : Z;
  room_name : string;
  room_capacity : Z;
  room_hotelId : Z;
  room_createdAt : Z;
  room_updatedAt : Z
}.

(** The tables, each in the order in which the store yields its rows. *)
Record Database := {
  users : list User;
  enrollments : list Enrollment;
  tickets : list Ticket;
  ticketTypes : list TicketType;
  hotels : list Hotel;
  rooms : list Room
}.

(** ** Rows with their included relations *)

Record TicketWithTicketType := {
  ticket : Ticket;
  incl_TicketType : option TicketType
}.

Record EnrollmentWithTicket := {
  enrollment : Enrollment;
  incl_Ticket : list TicketWithTicketType
}.

Record UserWithEnrollment := {
  user : User;
  incl_Enrollment : list EnrollmentWithTicket
}.

(** [type HotelWithRooms = Hotel & { Rooms: Room[] }] *)
Record HotelWithRooms := {
  hotel : Hotel;
  Rooms : list Room
}.

(** ** Errors *)

(** What a rejected promise carries.  [ForbiddenError] and [NotFoundError] are
    the application errors of [@/errors], [TypeError] is what JavaScript raises
    when a property of [null] or [undefined] is read, and
    [InfrastructureFailure] stands for any rejection of the Prisma client. *)
Inductive Error := ForbiddenError | NotFoundError | TypeError | InfrastructureFailure.

(** Modelled from the spec: [@/errors] is not part of the sources; the names
    are the ones the controller compares [error.name] with. *)
Definition Error_name (e : Error) : string :=
  match e with
  | ForbiddenError => "ForbiddenError"
  | NotFoundError => "NotFoundError"
  | TypeError => "TypeError"
  | InfrastructureFailure => "PrismaClientInitializationError"
  end.

Definition forbiddenError : Error := ForbiddenError.
Definition notFoundError : Error := NotFoundError.

(** ** The monad of asynchronous store accesses *)

Inductive Query := UserFindFirst | HotelFindMany | HotelFindUnique (id : Z).

Record World := {
  db : Database;
  down : Query -> bool;   (* the queries the store fails to answer *)
  log : list Query        (* the queries issued so far, oldest first *)
}.

Inductive Outcome (A : Type) := Returns (a : A) | Throws (e : Error).
Arguments Returns {A} a.
Arguments Throws {A} e.

Definition M (A : Type) : Type := World -> Outcome A * World.

Definition ret {A} (a : A) : M A := fun w => (Returns a, w).

Definition throw {A} (e : Error) : M A := fun w => (Throws e, w).

Definition bind {A B} (c : M A) (k : A -> M B) : M B :=
  fun w =>
    match c w with
    | (Returns a, w') => k a w'
    | (Throws e, w') => (Throws e, w')
    end.

Definition try_catch {A} (body : M A) (handler : Error -> M A) : M A :=
  fun w =>
    match body w with
    | (Returns a, w') => (Returns a, w')
    | (Throws e, w') => handler e w'
    end.

Notation "x <- c ;; k" := (bind c (fun x => k))
  (at level 61, c at next level, right associativity).

(** Reading property [f] of a value that may be [null] or [undefined]. *)
Definition member {A B} (o : option A) (f : A -> B) : M B :=
  match o with
  | Some a => ret (f a)
  | None => throw TypeError
  end.

(** [o?.f] *)
Definition opt_member {A B} (o : option A) (f : A -> B) : option B :=
  option_map f o.

(** [a[0]] on an array: [undefined] when the array is empty. *)
Definition index0 {A} (a : list A) : option A := hd_error a.

(** [o?.[0]] where [o] is an array or [undefined]. *)
Definition opt_index0 {A} (o : option (list A)) : option A :=
  match o with
  | Some a => index0 a
  | None => None
  end.

(** ** The Prisma client *)

(** The world once query [q] has been issued: the rows are untouched. *)
Definition logged (q : Query) (w : World) : World :=
  {| db := db w; down := down w; log := log w ++ [q] |}.

(** A read query either yields what it reads from the rows or is rejected. *)
Definition prisma_read {A} (q : Query) (read : Database -> A) : M A :=
  fun w =>
    if down w q then (Throws InfrastructureFailure, logged q w)
    else (Returns (read (db w)), logged q w).

Definition include_TicketType (d : Database) (t : Ticket) : TicketWithTicketType :=
  {| ticket := t;
     incl_TicketType :=
       find (fun tt => ticketType_id tt =? ticket_ticketTypeId t) (ticketTypes d) |}.

Definition include_Ticket (d : Database) (e : Enrollment) : EnrollmentWithTicket :=
  {| enrollment := e;
     incl_Ticket :=
       map (include_TicketType d)
           (filter (fun t => ticket_enrollmentId t =? enrollment_id e) (tickets d)) |}.

Definition include_Enrollment (d : Database) (u : User) : UserWithEnrollment :=
  {| user := u;
     incl_Enrollment :=
       map (include_Ticket d)
           (filter (fun e => enrollment_userId e =? user_id u) (enrollments d)) |}.

(** Ascending order by a key, as [orderBy: { id: "asc" }] yields it. *)
Fixpoint insert_by {A} (key : A -> Z) (x : A) (l : list A) : list A :=
  match l with
  | [] => [x]
  | y :: l' => if key x <=? key y then x :: l else y :: insert_by key x l'
  end.

Definition sort_by {A} (key : A -> Z) (l : list A) : list A :=
  fold_right (insert_by key) [] l.

(** ** [src/repositories/user-repository/index.ts] *)

Module userRepository.

(** [prisma.user.findFirst({ include: { Enrollment: { include: { Ticket:
    { include: { TicketType: true } } } } } })]: there is no [where]
    clause, the argument [userId] is not used. *)
Definition findUserWithTicketTypeByUserId (userId : Z)
  : M (option UserWithEnrollment) :=
  prisma_read UserFindFirst
    (fun d => option_map (include_Enrollment d) (index0 (users d))).

End userRepository.

(** ** [@/repositories/hotel-repository] *)

Module hotelRepository.

(** Modelled from the spec: [hotelRepository.findHotels] is not part of the
    sources.  "listHotels() -> ordered sequence of Hotel (order: ascending
    by id; may be empty)"; read-only. *)
Definition findHotels : M (list Hotel) :=
  prisma_read HotelFindMany (fun d => sort_by hotel_id (hotels d)).

(** Modelled from the spec: [hotelRepository.findHotelWithRoomsById] is not
    part of the sources.  "fetchHotelWithRooms(hotelId) -> (Hotel, sequence
    of Room) | absent: absent when no hotel with that id exists; rooms
    sequence may be empty, ordered ascending by id"; read-only. *)
Definition findHotelWithRoomsById (hotelId : Z) : M (option HotelWithRooms) :=
  prisma_read (HotelFindUnique hotelId)
    (fun d =>
       match find (fun h => hotel_id h =? hotelId) (hotels d) with
       | Some h =>
           Some {| hotel := h;
                   Rooms := sort_by room_id
                              (filter (fun r => room_hotelId r =? hotel_id h) (rooms d)) |}
       | None => None
       end).

End hotelRepository.

(** ** [src/services/hotels-service/index.ts] *)

Module hotelService.

Definition isAllowed (userId : Z) : M bool :=
  userWithTicketTypeByUserId <- userRepository.findUserWithTicketTypeByUserId userId ;;
  Enrollment_ <- member userWithTicketTypeByUserId incl_Enrollment ;;
  let ticketWithTicketType :=
    opt_index0 (opt_member (index0 Enrollment_) incl_Ticket) in
  let ticketType :=
    match ticketWithTicketType with
    | Some t => incl_TicketType t
    | None => None
    end in
  match ticketType with
  | None => ret false
  | Some ticketType =>
      status_ <- member ticketWithTicketType (fun t => status (ticket t)) ;;
      let isPaidTicket := TicketStatus_eqb status_ PAID in
      let isHostableTicket := negb (isRemote ticketType) && includesHotel ticketType in
      let isPaidAndHostableTicket := isPaidTicket && isHostableTicket in
      if negb isPaidAndHostableTicket then ret false else ret true
  end.

Definition getHotels (userId : Z) : M (list Hotel) :=
  allowed <- isAllowed userId ;;
  if negb allowed then throw forbiddenError
  else
    hotels <- hotelRepository.findHotels ;;
    ret hotels.

Definition getHotelWithRooms (userId hotelId : Z) : M HotelWithRooms :=
  allowed <- isAllowed userId ;;
  if negb allowed then throw forbiddenError
  else
    hotelWithRooms <- hotelRepository.findHotelWithRoomsById hotelId ;;
    match hotelWithRooms with
    | None => throw notFoundError
    | Some hotelWithRooms => ret hotelWithRooms
    end.

End hotelService.

(** ** [src/unnamed/part_001]

    The earlier revision of the service, with [getHotels] only.  Its check
    reads [Enrollment?.[0].Ticket?.[0]]: [.Ticket] is not guarded. *)
Module hotelService_v0.

Definition isAllowed (userId : Z) : M bool :=
  userWithTicketTypeByUserId <- userRepository.findUserWithTicketTypeByUserId userId ;;
  Enrollment_ <- member userWithTicketTypeByUserId incl_Enrollment ;;
  Ticket_ <- member (index0 Enrollment_) incl_Ticket ;;
  let ticketWithTicketType := index0 Ticket_ in
  let ticketType :=
    match ticketWithTicketType with
    | Some t => incl_TicketType t
    | None => None
    end in
  match ticketType with
  | None => ret false
  | Some ticketType =>
      status_ <- member ticketWithTicketType (fun t => status (ticket t)) ;;
      let isPaidTicket := TicketStatus_eqb status_ PAID in
      let isHostableTicket := negb (isRemote ticketType) && includesHotel ticketType in
      let isPaidAndHostableTicket := isPaidTicket && isHostableTicket in
      if negb isPaidAndHostableTicket then ret false else ret true
  end.

Definition getHotels (userId : Z) : M (list Hotel) :=
  allowed <- isAllowed userId ;;
  if negb allowed then throw forbiddenError
  else
    hotels <- hotelRepository.findHotels ;;
    ret hotels.

End hotelService_v0.

(** ** [src/controllers/hotels-controller.ts] *)

Module httpStatus.
Definition OK : Z := 200.
Definition FORBIDDEN : Z := 403.
Definition NOT_FOUND : Z := 404.
End httpStatus.

Inductive Body :=
| StatusText                         (* [res.sendStatus(code)] *)
| HotelsBody (hs : list Hotel)       (* [res.status(code).send(hotels)] *)
| HotelBody (h : HotelWithRooms).    (* [res.status(code).send(hotelWithRooms)] *)

Record Response := { res_status : Z; res_body : Body }.

(** [userId] is set by the authentication middleware; [hotelId] is
    [Number(req.params.hotelId)], the parameter having passed the digits
    schema of the router. *)
Record AuthenticatedRequest := { userId : Z; params_hotelId : Z }.

Module hotelsController.

(** The value is the response that was sent, [None] when the handler
    finishes without sending one. *)
Definition getHotels (req : AuthenticatedRequest) : M (option Response) :=
  try_catch
    (hotels <- hotelService.getHotels (userId req) ;;
     ret (Some {| res_status := httpStatus.OK; res_body := HotelsBody hotels |}))
    (fun error =>
       ret (Some {| res_status := httpStatus.FORBIDDEN; res_body := StatusText |})).

Definition getHotelWithRooms (req : AuthenticatedRequest) : M (option Response) :=
  let hotelId := params_hotelId req in
  try_catch
    (hotelWithRooms <- hotelService.getHotelWithRooms (userId req) hotelId ;;
     ret (Some {| res_status := httpStatus.OK; res_body := HotelBody hotelWithRooms |}))
    (fun error =>
       if (Error_name error =? "ForbiddenError")%string then
         ret (Some {| res_status := httpStatus.FORBIDDEN; res_body := StatusText |})
       else if (Error_name error =? "NotFoundError")%string then
         ret (Some {| res_status := httpStatus.NOT_FOUND; res_body := StatusText |})
       else ret None).

End hotelsController.

(** ** Vocabulary of the statements *)

(** The ticket the service looks at: [Enrollment?.[0]?.Ticket?.[0]]. *)
Definition first_ticket (u : UserWithEnrollment) : option TicketWithTicketType :=
  opt_index0 (opt_member (index0 (incl_Enrollment u)) incl_Ticket).

(** A computation that leaves the rows and the availability of the store as
    they were. *)
Definition read_only {A} (c : M A) : Prop :=
  forall w, db (snd (c w)) = db w /\ down (snd (c w)) = down w.

(** Ascending by key. *)
Fixpoint ascending {A} (key : A -> Z) (l : list A) : Prop :=
  match l with
  | [] => True
  | x :: l' => (forall y, In y l' -> key x <= key y) /\ ascending key l'
  end.

(** ** Sample stores *)

Definition no_rows : Database :=
  {| users := []; enrollments := []; tickets := []; ticketTypes := [];
     hotels := []; rooms := [] |}.

Definition always_up : Query -> bool := fun _ => false.

Definition hostable : TicketType :=
  {| ticketType_id := 100; isRemote := false; includesHotel := true |}.

Definition remote : TicketType :=
  {| ticketType_id := 101; isRemote := true; includesHotel := false |}.

Definition alice : User := {| user_id := 1; user_email := "alice@drivent.test" |}.
Definition bob : User := {| user_id := 2; user_email := "bob@drivent.test" |}.

Definition plaza : Hotel :=
  {| hotel_id := 7; hotel_name := "Plaza"; hotel_image := "plaza.png";
     hotel_createdAt := 1000; hotel_updatedAt := 1000 |}.

Definition plaza_101 : Room :=
  {| room_id := 31; room_name := "101"; room_capacity := 2; room_hotelId := 7;
     room_createdAt := 5000; room_updatedAt := 6000 |}.

(** No user row at all. *)
Definition w_nobody : World :=
  {| db := no_rows; down := always_up; log := [] |}.

Definition bob_enrollment : Enrollment :=
  {| enrollment_id := 10; enrollment_userId := 2 |}.

Definition bob_ticket : Ticket :=
  {| ticket_id := 1000; ticket_ticketTypeId := 100;
     ticket_enrollmentId := 10; status := PAID |}.

(** Alice has no enrollment; Bob holds a paid ticket that includes the hotel. *)
Definition two_users : Database :=
  {| users := [alice; bob];
     enrollments := [bob_enrollment];
     tickets := [bob_ticket];
     ticketTypes := [hostable; remote];
     hotels := [plaza];
     rooms := [plaza_101] |}.

Definition w_two_users : World :=
  {| db := two_users; down := always_up; log := [] |}.

(** Bob alone, with his paid ticket; one hotel with one room, the room written
    later than the hotel. *)
Definition bob_alone : Database :=
  {| users := [bob];
     enrollments := enrollments two_users;
     tickets := tickets two_users;
     ticketTypes := ticketTypes two_users;
     hotels := [plaza];
     rooms := [plaza_101] |}.

Definition w_bob : World :=
  {| db := bob_alone; down := always_up; log := [] |}.

(** Bob alone and eligible, no hotel stored. *)
Definition w_bob_no_hotel : World :=
  {| db := {| users := [bob];
              enrollments := enrollments two_users;
              tickets := tickets two_users;
              ticketTypes := ticketTypes two_users;
              hotels := [];
              rooms := [] |};
     down := always_up; log := [] |}.

(** Alice alone, without enrollment. *)
Definition w_alice : World :=
  {| db := {| users := [alice]; enrollments := []; tickets := [];
              ticketTypes := [hostable]; hotels := [plaza]; rooms := [plaza_101] |};
     down := always_up; log := [] |}.

(** What the lookup yields on [w_bob]. *)
Definition bob_ticket_with_type : TicketWithTicketType :=
  {| ticket := bob_ticket; incl_TicketType := Some hostable |}.

Definition bob_with_enrollment : UserWithEnrollment :=
  {| user := bob;
     incl_Enrollment :=
       [ {| enrollment := bob_enrollment; incl_Ticket := [bob_ticket_with_type] |} ] |}.

(** Bob's rows, the store answering no query. *)
Definition w_outage : World :=
  {| db := bob_alone; down := fun _ => true; log := [] |}.

(** ** [src/schemas/hotels-schemas.ts] *)

(** A character of the class [[0-9]]. *)
Definition is_digit (c : Ascii.ascii) : bool :=
  (Ascii.leb "0" c && Ascii.leb c "9")%char.

Fixpoint all_digits (s : string) : bool :=
  match s with
  | EmptyString => true
  | String c s' => is_digit c && all_digits s'
  end.

(** The pattern [/^[0-9]+$/]: the whole string, one digit at least. *)
Definition digits (s : string) : bool :=
  match s with
  | EmptyString => false
  | String _ _ => all_digits s
  end.

Module hotelsSchemas.

(** [Joi.object({ hotelId: Joi.string().pattern(/^[0-9]+$/, { name: "digits"
    }).required() })] on the parameters of the route, where [hotelId] is a
    string or is missing: [true] when the validation reports no error. *)
Definition getHotelWithRoomsSchema (hotelId : option string) : bool :=
  match hotelId with
  | Some s => digits s
  | None => false
  end.

End hotelsSchemas.

(** ** Further vocabulary *)

(** The boolean the check computes on a record that was found. *)
Definition paid_and_hostable (u : UserWithEnrollment) : bool :=
  match first_ticket u with
  | Some t =>
      match incl_TicketType t with
      | Some ty =>
          TicketStatus_eqb (status (ticket t)) PAID
          && (negb (isRemote ty) && includesHotel ty)
      | None => false
      end
  | None => false
  end.

(** Two worlds with the same rows and the same failing queries; the logs may
    differ. *)
Definition same_store (w w' : World) : Prop :=
  db w = db w' /\ (forall q, down w q = down w' q).

(** A computation that does not look at the log of earlier queries. *)
Definition history_blind {A} (c : M A) : Prop :=
  forall w w', same_store w w' ->
    fst (c w) = fst (c w') /\ same_store (snd (c w)) (snd (c w')).

(** Bob's first ticket is only reserved; a second one is paid.  Both include
    the hotel. *)
Definition bob_reserved_ticket : Ticket :=
  {| ticket_id := 999; ticket_ticketTypeId := 100;
     ticket_enrollmentId := 10; status := RESERVED |}.

Definition w_bob_reserved_then_paid : World :=
  {| db := {| users := [bob];
              enrollments := [bob_enrollment];
              tickets := [bob_reserved_ticket; bob_ticket];
              ticketTypes := [hostable; remote];
              hotels := [plaza];
              rooms := [plaza_101] |};
     down := always_up; log := [] |}.

Definition w_bob_reserved_only : World :=
  {| db := {| users := [bob];
              enrollments := [bob_enrollment];
              tickets := [bob_reserved_ticket];
              ticketTypes := [hostable; remote];
              hotels := [plaza];
              rooms := [plaza_101] |};
     down := always_up; log := [] |}.

(** Bob's rows; the store answers the user lookup and no hotel query. *)
Definition w_hotels_down : World :=
  {| db := bob_alone;
     down := fun q => match q with UserFindFirst => false | _ => true end;
     log := [] |}.

(** * Properties *)

(** ** The store is only read *)

Section ReadOnly.

Context {A B : Type}.

Lemma read_only_ret (a : A) : read_only (ret a).
Proof. intro w. split; reflexivity. Qed.

Lemma read_only_throw (e : Error) : read_only (@throw A e).
Proof. intro w. split; reflexivity. Qed.

Lemma read_only_prisma_read (q : Query) (read : Database -> A) :
  read_only (prisma_read q read).
Proof.
  intro w. unfold prisma_read.
  destruct (down w q); split; reflexivity.
Qed.

Lemma read_only_member (o : option A) (f : A -> B) : read_only (member o f).
Proof.
  destruct o; intro w; split; reflexivity.
Qed.

Lemma read_only_bind (c : M A) (k : A -> M B) :
  read_only c -> (forall a, read_only (k a)) -> read_only (bind c k).
Proof.
  intros Hc Hk w. unfold bind.
  destruct (Hc w) as [Hdb Hdown].
  destruct (c w) as [[a | e] w1]; simpl in *.
  - destruct (Hk a w1) as [Hdb1 Hdown1]. split; congruence.
  - split; assumption.
Qed.

Lemma read_only_try_catch (body : M A) (handler : Error -> M A) :
  read_only body -> (forall e, read_only (handler e)) ->
  read_only (try_catch body handler).
Proof.
  intros Hb Hh w. unfold try_catch.
  destruct (Hb w) as [Hdb Hdown].
  destruct (body w) as [[a | e] w1]; simpl in *.
  - split; assumption.
  - destruct (Hh e w1) as [Hdb1 Hdown1]. split; congruence.
Qed.

End ReadOnly.

Ltac frame_step :=
  first [ apply read_only_bind; [ | intro ]
        | apply read_only_try_catch; [ | intro ]
        | apply read_only_ret
        | apply read_only_throw
        | apply read_only_prisma_read
        | apply read_only_member ].

Lemma read_only_findUser (userId : Z) :
  read_only (userRepository.findUserWithTicketTypeByUserId userId).
Proof. apply read_only_prisma_read. Qed.

Lemma read_only_isAllowed (userId : Z) : read_only (hotelService.isAllowed userId).
Proof.
  unfold hotelService.isAllowed.
  apply read_only_bind; [ apply read_only_findUser | intro u ].
  apply read_only_bind; [ apply read_only_member | intro es ].
  destruct (opt_index0 (opt_member (index0 es) incl_Ticket)) as [t | ]; simpl.
  - destruct (incl_TicketType t) as [ty | ].
    + apply read_only_bind; [ apply read_only_ret | intro s ].
      destruct (negb _); frame_step.
    + frame_step.
  - frame_step.
Qed.

Lemma read_only_getHotels (userId : Z) : read_only (hotelService.getHotels userId).
Proof.
  unfold hotelService.getHotels.
  apply read_only_bind; [ apply read_only_isAllowed | intro allowed ].
  destruct (negb allowed); [ frame_step | ].
  unfold hotelRepository.findHotels. repeat frame_step.
Qed.

Lemma read_only_getHotelWithRooms (userId hotelId : Z) :
  read_only (hotelService.getHotelWithRooms userId hotelId).
Proof.
  unfold hotelService.getHotelWithRooms.
  apply read_only_bind; [ apply read_only_isAllowed | intro allowed ].
  destruct (negb allowed); [ frame_step | ].
  unfold hotelRepository.findHotelWithRoomsById.
  apply read_only_bind; [ apply read_only_prisma_read | intros [hw | ] ]; frame_step.
Qed.

(** ** What one run of the eligibility check does *)

(** The lookup issues one query and does not look at its argument. *)
Lemma findUser_run (userId : Z) (w : World) :
  userRepository.findUserWithTicketTypeByUserId userId w =
  if down w UserFindFirst then (Throws InfrastructureFailure, logged UserFindFirst w)
  else (Returns (option_map (include_Enrollment (db w)) (index0 (users (db w)))),
        logged UserFindFirst w).
Proof. reflexivity. Qed.

(** The decision on a record that was found, as one boolean expression. *)
Lemma isAllowed_found (userId : Z) (w w1 : World) (u : UserWithEnrollment) :
  userRepository.findUserWithTicketTypeByUserId userId w = (Returns (Some u), w1) ->
  hotelService.isAllowed userId w =
  (Returns match first_ticket u with
           | Some t =>
               match incl_TicketType t with
               | Some ty =>
                   TicketStatus_eqb (status (ticket t)) PAID
                   && (negb (isRemote ty) && includesHotel ty)
               | None => false
               end
           | None => false
           end, w1).
Proof.
  intro H. unfold hotelService.isAllowed, bind. rewrite H. simpl.
  unfold first_ticket.
  destruct (opt_index0 (opt_member (index0 (incl_Enrollment u)) incl_Ticket))
    as [t | ]; [ | reflexivity ].
  destruct (incl_TicketType t) as [ty | ]; [ | reflexivity ].
  simpl.
  destruct (TicketStatus_eqb (status (ticket t)) PAID
            && (negb (isRemote ty) && includesHotel ty)); reflexivity.
Qed.

(** Without a user row the unguarded [.Enrollment] raises. *)
Lemma isAllowed_not_found (userId : Z) (w w1 : World) :
  userRepository.findUserWithTicketTypeByUserId userId w = (Returns None, w1) ->
  hotelService.isAllowed userId w = (Throws TypeError, w1).
Proof.
  intro H. unfold hotelService.isAllowed, bind. rewrite H. reflexivity.
Qed.

(** Whatever the verdict, the check issues the user query and nothing else. *)
Lemma isAllowed_world (userId : Z) (w : World) :
  snd (hotelService.isAllowed userId w) = logged UserFindFirst w.
Proof.
  destruct (userRepository.findUserWithTicketTypeByUserId userId w)
    as [[[u | ] | e] w1] eqn:H.
  - rewrite (isAllowed_found _ _ _ _ H). simpl.
    rewrite findUser_run in H. destruct (down w UserFindFirst); congruence.
  - rewrite (isAllowed_not_found _ _ _ H). simpl.
    rewrite findUser_run in H. destruct (down w UserFindFirst); congruence.
  - unfold hotelService.isAllowed, bind. rewrite H. simpl.
    rewrite findUser_run in H. destruct (down w UserFindFirst); congruence.
Qed.

Lemma TicketStatus_eqb_eq (a b : TicketStatus) :
  TicketStatus_eqb a b = true <-> a = b.
Proof. destruct a, b; simpl; split; congruence. Qed.

(** ** The lookup and the caller *)

(** C1: the lookup is meant to return the enrollment, ticket and ticket type
    of the user whose id it is given.  It does not: on a store whose first
    user row is Alice (id 1, no enrollment) and whose second is Bob (id 2,
    paid ticket that includes the hotel), the lookup for id 2 yields Alice's
    record, and Bob is judged on it; alone in the store, the same Bob is
    allowed. *)
Theorem findUser_for_bob_yields_alice :
  fst (userRepository.findUserWithTicketTypeByUserId 2 w_two_users)
  = Returns (Some {| user := alice; incl_Enrollment := [] |})
  /\ user_id alice <> 2
  /\ In bob (users (db w_two_users))
  /\ fst (hotelService.isAllowed 2 w_two_users) = Returns false
  /\ fst (hotelService.isAllowed 2 w_bob) = Returns true.
Proof.
  repeat split; try reflexivity.
  - discriminate.
  - simpl. right. left. reflexivity.
Qed.

(** C10: on one store, the verdict of the eligibility check, and with it the
    whole outcome of both service operations, is the same for any two user
    ids. *)
Theorem isAllowed_same_for_all_callers (w : World) (u1 u2 : Z) :
  hotelService.isAllowed u1 w = hotelService.isAllowed u2 w
  /\ hotelService.getHotels u1 w = hotelService.getHotels u2 w
  /\ (forall hotelId,
        hotelService.getHotelWithRooms u1 hotelId w
        = hotelService.getHotelWithRooms u2 hotelId w).
Proof.
  assert (Hsame : hotelService.isAllowed u1 = hotelService.isAllowed u2)
    by reflexivity.
  unfold hotelService.getHotels, hotelService.getHotelWithRooms.
  rewrite Hsame. repeat split.
Qed.

(** ** The decision *)

(** C2: when the lookup found a record whose first enrollment has a first
    ticket with a ticket type, the check answers [true] exactly when the
    ticket is paid, its type is not remote and its type includes the hotel;
    with two of the three held at the eligible value and the third flipped,
    it answers [false]. *)
Theorem isAllowed_iff_paid_and_hostable
  (userId : Z) (w w1 : World) (u : UserWithEnrollment)
  (t : TicketWithTicketType) (ty : TicketType) :
  userRepository.findUserWithTicketTypeByUserId userId w = (Returns (Some u), w1) ->
  first_ticket u = Some t ->
  incl_TicketType t = Some ty ->
  (fst (hotelService.isAllowed userId w) = Returns true <->
     status (ticket t) = PAID /\ isRemote ty = false /\ includesHotel ty = true)
  /\ (fst (hotelService.isAllowed userId w) = Returns true
      \/ fst (hotelService.isAllowed userId w) = Returns false)
  /\ (status (ticket t) <> PAID -> isRemote ty = false -> includesHotel ty = true ->
      fst (hotelService.isAllowed userId w) = Returns false)
  /\ (status (ticket t) = PAID -> isRemote ty = true -> includesHotel ty = true ->
      fst (hotelService.isAllowed userId w) = Returns false)
  /\ (status (ticket t) = PAID -> isRemote ty = false -> includesHotel ty = false ->
      fst (hotelService.isAllowed userId w) = Returns false).
Proof.
  intros Hfound Ht Hty.
  rewrite (isAllowed_found _ _ _ _ Hfound), Ht, Hty. simpl.
  destruct (status (ticket t)), (isRemote ty), (includesHotel ty); simpl;
    repeat split; intros; try tauto; try congruence;
    repeat match goal with H : _ /\ _ |- _ => destruct H end;
    try discriminate; auto.
Qed.

(** C3, as the code has it: once the lookup found a user record, the check
    returns a boolean and leaves no exception, and a record without
    enrollment, an enrollment without ticket and a ticket without ticket type
    each give [false]. *)
Theorem isAllowed_total_on_found_user
  (userId : Z) (w w1 : World) (u : UserWithEnrollment) :
  userRepository.findUserWithTicketTypeByUserId userId w = (Returns (Some u), w1) ->
  (exists b, hotelService.isAllowed userId w = (Returns b, w1))
  /\ (incl_Enrollment u = [] ->
      fst (hotelService.isAllowed userId w) = Returns false)
  /\ (forall e, index0 (incl_Enrollment u) = Some e -> incl_Ticket e = [] ->
      fst (hotelService.isAllowed userId w) = Returns false)
  /\ (forall t, first_ticket u = Some t -> incl_TicketType t = None ->
      fst (hotelService.isAllowed userId w) = Returns false).
Proof.
  intro Hfound. rewrite (isAllowed_found _ _ _ _ Hfound).
  split; [ eexists; reflexivity | ].
  unfold first_ticket. repeat split.
  - intro He. rewrite He. reflexivity.
  - intros e He Hts. rewrite He. simpl. rewrite Hts. reflexivity.
  - intros t Ht Hty. rewrite Ht, Hty. reflexivity.
Qed.

(** C4: when the check answers [false], [getHotelWithRooms] raises the
    forbidden error for every hotel id, whether a hotel has that id or not;
    the outcome is not the not-found error, and the only query issued is the
    user lookup, so the hotel lookup was not consulted. *)
Theorem eligibility_checked_before_existence
  (userId hotelId : Z) (w w1 : World) :
  hotelService.isAllowed userId w = (Returns false, w1) ->
  hotelService.getHotelWithRooms userId hotelId w = (Throws ForbiddenError, w1)
  /\ fst (hotelService.getHotelWithRooms userId hotelId w) <> Throws NotFoundError
  /\ log (snd (hotelService.getHotelWithRooms userId hotelId w))
     = (log w ++ [UserFindFirst])%list.
Proof.
  intro Hdenied.
  assert (Hrun : hotelService.getHotelWithRooms userId hotelId w
                 = (Throws ForbiddenError, w1)).
  { unfold hotelService.getHotelWithRooms, bind. rewrite Hdenied. reflexivity. }
  rewrite Hrun. simpl. repeat split.
  - discriminate.
  - pose proof (isAllowed_world userId w) as Hw.
    rewrite Hdenied in Hw. simpl in Hw. subst w1. reflexivity.
Qed.

(** ** Ordering by id *)

Section SortBy.

Context {A : Type} (key : A -> Z).

Lemma insert_by_perm (x : A) (l : list A) :
  Permutation (insert_by key x l) (x :: l).
Proof.
  induction l as [ | y l IH]; simpl.
  - apply Permutation_refl.
  - destruct (key x <=? key y).
    + apply Permutation_refl.
    + apply Permutation_trans with (y :: x :: l).
      * apply perm_skip. exact IH.
      * apply perm_swap.
Qed.

Lemma sort_by_perm (l : list A) : Permutation (sort_by key l) l.
Proof.
  induction l as [ | x l IH]; simpl.
  - apply perm_nil.
  - apply Permutation_trans with (x :: sort_by key l).
    + apply insert_by_perm.
    + apply perm_skip. exact IH.
Qed.

Lemma insert_by_ascending (x : A) (l : list A) :
  ascending key l -> ascending key (insert_by key x l).
Proof.
  induction l as [ | y l IH]; simpl.
  - intros _. split; [ intros z [] | exact I ].
  - intros [Hy Hl].
    destruct (key x <=? key y) eqn:Hxy.
    + apply Z.leb_le in Hxy. simpl. split.
      * intros z [Hz | Hz]; [ subst z; exact Hxy | ].
        specialize (Hy z Hz). lia.
      * split; assumption.
    + apply Z.leb_gt in Hxy. simpl. split.
      * intros z Hz.
        apply (Permutation_in _ (insert_by_perm x l)) in Hz.
        destruct Hz as [Hz | Hz]; [ subst z; lia | apply Hy; exact Hz ].
      * apply IH. exact Hl.
Qed.

Lemma sort_by_ascending (l : list A) : ascending key (sort_by key l).
Proof.
  induction l as [ | x l IH]; simpl.
  - exact I.
  - apply insert_by_ascending. exact IH.
Qed.

Lemma sort_by_length (l : list A) : List.length (sort_by key l) = List.length l.
Proof. apply Permutation_length, sort_by_perm. Qed.

Lemma sort_by_In (l : list A) (x : A) : In x (sort_by key l) <-> In x l.
Proof.
  split; apply Permutation_in;
    [ apply sort_by_perm | apply Permutation_sym, sort_by_perm ].
Qed.

(** With unique keys, looking a row up by its key finds that very row. *)
Lemma find_by_unique_key (l : list A) (x : A) (k : Z) :
  NoDup (map key l) -> In x l -> key x = k ->
  find (fun y => key y =? k) l = Some x.
Proof.
  induction l as [ | y l IH]; simpl; intros Hnd Hin Hk.
  - contradiction.
  - inversion Hnd as [ | ? ? Hnotin Hnd']; subst.
    destruct Hin as [Hin | Hin].
    + subst y. rewrite Z.eqb_refl. reflexivity.
    + destruct (key y =? key x) eqn:Hyx.
      * apply Z.eqb_eq in Hyx. exfalso. apply Hnotin.
        rewrite Hyx. apply in_map. exact Hin.
      * apply IH; auto.
Qed.

Lemma find_by_key_none (l : list A) (k : Z) :
  find (fun y => key y =? k) l = None <-> (forall y, In y l -> key y <> k).
Proof.
  split.
  - intros Hnone y Hin Hk.
    pose proof (find_none _ _ Hnone y Hin) as Hy. simpl in Hy.
    apply Z.eqb_neq in Hy. contradiction.
  - intro Hall. induction l as [ | y l IH]; simpl; [ reflexivity | ].
    destruct (key y =? k) eqn:Hy.
    + apply Z.eqb_eq in Hy. exfalso. apply (Hall y); [ left; reflexivity | exact Hy ].
    + apply IH. intros z Hz. apply Hall. right. exact Hz.
Qed.

End SortBy.

(** ** The two reads behind the gate *)

(** What [getHotelWithRooms] does once the check has answered [true] and the
    store answers the hotel query. *)
Lemma getHotelWithRooms_allowed (userId hotelId : Z) (w w1 : World) :
  hotelService.isAllowed userId w = (Returns true, w1) ->
  down w (HotelFindUnique hotelId) = false ->
  hotelService.getHotelWithRooms userId hotelId w =
  (match find (fun h => hotel_id h =? hotelId) (hotels (db w)) with
   | Some h =>
       Returns {| hotel := h;
                  Rooms := sort_by room_id
                             (filter (fun r => room_hotelId r =? hotel_id h)
                                     (rooms (db w))) |}
   | None => Throws NotFoundError
   end, logged (HotelFindUnique hotelId) w1).
Proof.
  intros Hallowed Hup.
  pose proof (isAllowed_world userId w) as Hw.
  rewrite Hallowed in Hw. simpl in Hw. subst w1.
  unfold hotelService.getHotelWithRooms, bind at 1. rewrite Hallowed. simpl.
  unfold bind, hotelRepository.findHotelWithRoomsById, prisma_read. simpl.
  rewrite Hup.
  destruct (find (fun h => hotel_id h =? hotelId) (hotels (db w))); reflexivity.
Qed.

(** C5: when the check answers [true], [getHotels] is the hotel lookup of the
    repository run after the check, outcome and store alike, so the list comes
    back as the repository gave it; with no hotel stored and the store
    answering, the outcome is the empty list and no error. *)
Theorem getHotels_returns_gateway_list (userId : Z) (w w1 : World) :
  hotelService.isAllowed userId w = (Returns true, w1) ->
  hotelService.getHotels userId w = hotelRepository.findHotels w1
  /\ (down w HotelFindMany = false -> hotels (db w) = [] ->
      fst (hotelService.getHotels userId w) = Returns []).
Proof.
  intro Hallowed.
  assert (Hrun : hotelService.getHotels userId w = hotelRepository.findHotels w1).
  { unfold hotelService.getHotels, bind at 1. rewrite Hallowed. simpl.
    unfold bind, ret.
    destruct (hotelRepository.findHotels w1) as [[hs | e] w2]; reflexivity. }
  split; [ exact Hrun | ].
  intros Hup Hnone. rewrite Hrun.
  pose proof (isAllowed_world userId w) as Hw.
  rewrite Hallowed in Hw. simpl in Hw. subst w1.
  unfold hotelRepository.findHotels, prisma_read. simpl.
  rewrite Hup, Hnone. reflexivity.
Qed.

(** C6: when the check answers [true] and the store answers the hotel query,
    [getHotelWithRooms] raises the not-found error exactly when no stored
    hotel has the requested id; when one has, it returns a stored hotel with
    that id together with the rooms that refer to it. *)
Theorem getHotelWithRooms_not_found_iff_no_hotel
  (userId hotelId : Z) (w w1 : World) :
  hotelService.isAllowed userId w = (Returns true, w1) ->
  down w (HotelFindUnique hotelId) = false ->
  (fst (hotelService.getHotelWithRooms userId hotelId w) = Throws NotFoundError
   <-> (forall h, In h (hotels (db w)) -> hotel_id h <> hotelId))
  /\ ((exists h, In h (hotels (db w)) /\ hotel_id h = hotelId) ->
      exists hw,
        fst (hotelService.getHotelWithRooms userId hotelId w) = Returns hw
        /\ In (hotel hw) (hotels (db w))
        /\ hotel_id (hotel hw) = hotelId
        /\ (forall r, In r (Rooms hw) <->
                      In r (rooms (db w)) /\ room_hotelId r = hotelId)).
Proof.
  intros Hallowed Hup.
  rewrite (getHotelWithRooms_allowed _ _ _ _ Hallowed Hup). simpl.
  destruct (find (fun h => hotel_id h =? hotelId) (hotels (db w)))
    as [h | ] eqn:Hfind.
  - destruct (find_some _ _ Hfind) as [Hin Hid]. apply Z.eqb_eq in Hid.
    split.
    + split; [ discriminate | ].
      intro Hall. exfalso. exact (Hall h Hin Hid).
    + intros _. eexists. split; [ reflexivity | ]. simpl.
      split; [ exact Hin | ]. split; [ exact Hid | ].
      intro r. rewrite sort_by_In, filter_In, Z.eqb_eq, Hid. tauto.
  - split.
    + split; [ intros _ | reflexivity ].
      apply (find_by_key_none hotel_id). exact Hfind.
    + intros [h [Hin Hid]]. exfalso.
      exact (proj1 (find_by_key_none hotel_id _ _) Hfind h Hin Hid).
Qed.

(** C7, as the code has it: when the check answers [true], the store answers
    the hotel query, hotel ids are unique and the stored hotel [h] has the
    requested id while [N] stored rooms refer to it, the detail is [h] itself
    with exactly [N] room entries; the entries are those stored rooms as they
    are stored (own id, name, capacity, hotelId, createdAt and updatedAt), in
    ascending order of id. *)
Theorem detail_is_stored_hotel_with_its_stored_rooms
  (userId hotelId : Z) (w w1 : World) (h : Hotel) (N : nat) :
  hotelService.isAllowed userId w = (Returns true, w1) ->
  down w (HotelFindUnique hotelId) = false ->
  NoDup (map hotel_id (hotels (db w))) ->
  In h (hotels (db w)) ->
  hotel_id h = hotelId ->
  List.length (filter (fun r => room_hotelId r =? hotelId) (rooms (db w))) = N ->
  exists rs,
    fst (hotelService.getHotelWithRooms userId hotelId w)
    = Returns {| hotel := h; Rooms := rs |}
    /\ List.length rs = N
    /\ Permutation rs (filter (fun r => room_hotelId r =? hotelId) (rooms (db w)))
    /\ ascending room_id rs.
Proof.
  intros Hallowed Hup Hkeys Hin Hid HN.
  rewrite (getHotelWithRooms_allowed _ _ _ _ Hallowed Hup). simpl.
  rewrite (find_by_unique_key hotel_id _ h hotelId Hkeys Hin Hid).
  rewrite Hid. eexists. split; [ reflexivity | ].
  split; [ rewrite sort_by_length; exact HN | ].
  split; [ apply sort_by_perm | apply sort_by_ascending ].
Qed.

(** ** The controllers *)

(** What the handler of [GET /hotels] sends: 200 with the list when the
    service returns, 403 whatever the service raised. *)
Lemma controller_getHotels_run (req : AuthenticatedRequest) (w : World) :
  hotelsController.getHotels req w =
  match hotelService.getHotels (userId req) w with
  | (Returns hs, w1) =>
      (Returns (Some {| res_status := 200; res_body := HotelsBody hs |}), w1)
  | (Throws _, w1) =>
      (Returns (Some {| res_status := 403; res_body := StatusText |}), w1)
  end.
Proof.
  unfold hotelsController.getHotels, try_catch, bind.
  destruct (hotelService.getHotels (userId req) w) as [[hs | e] w1]; reflexivity.
Qed.

(** What the handler of [GET /hotels/:hotelId] sends: 200 with the detail
    when the service returns, 403 and 404 for the two errors it names,
    nothing for any other error. *)
Lemma controller_getHotelWithRooms_run (req : AuthenticatedRequest) (w : World) :
  hotelsController.getHotelWithRooms req w =
  match hotelService.getHotelWithRooms (userId req) (params_hotelId req) w with
  | (Returns hw, w1) =>
      (Returns (Some {| res_status := 200; res_body := HotelBody hw |}), w1)
  | (Throws ForbiddenError, w1) =>
      (Returns (Some {| res_status := 403; res_body := StatusText |}), w1)
  | (Throws NotFoundError, w1) =>
      (Returns (Some {| res_status := 404; res_body := StatusText |}), w1)
  | (Throws _, w1) => (Returns None, w1)
  end.
Proof.
  unfold hotelsController.getHotelWithRooms, try_catch, bind.
  destruct (hotelService.getHotelWithRooms (userId req) (params_hotelId req) w)
    as [[hw | [ | | | ]] w1]; reflexivity.
Qed.

(** C8, as the code has it: the forbidden error is answered 403 by both
    handlers and the not-found error 404 by the detail handler; the list
    handler answers 403 to every error, a failure of the store included; the
    detail handler answers a failure of the store neither 403 nor 404. *)
Theorem controllers_answer_failures (req : AuthenticatedRequest) (w : World) :
  (forall e w1,
      hotelService.getHotels (userId req) w = (Throws e, w1) ->
      hotelsController.getHotels req w
      = (Returns (Some {| res_status := httpStatus.FORBIDDEN;
                          res_body := StatusText |}), w1))
  /\ (forall w1,
      hotelService.getHotelWithRooms (userId req) (params_hotelId req) w
      = (Throws ForbiddenError, w1) ->
      hotelsController.getHotelWithRooms req w
      = (Returns (Some {| res_status := httpStatus.FORBIDDEN;
                          res_body := StatusText |}), w1))
  /\ (forall w1,
      hotelService.getHotelWithRooms (userId req) (params_hotelId req) w
      = (Throws NotFoundError, w1) ->
      hotelsController.getHotelWithRooms req w
      = (Returns (Some {| res_status := httpStatus.NOT_FOUND;
                          res_body := StatusText |}), w1))
  /\ (forall w1,
      hotelService.getHotelWithRooms (userId req) (params_hotelId req) w
      = (Throws InfrastructureFailure, w1) ->
      forall body,
        fst (hotelsController.getHotelWithRooms req w)
        <> Returns (Some {| res_status := httpStatus.FORBIDDEN; res_body := body |})
        /\ fst (hotelsController.getHotelWithRooms req w)
           <> Returns (Some {| res_status := httpStatus.NOT_FOUND; res_body := body |})).
Proof.
  rewrite controller_getHotels_run, controller_getHotelWithRooms_run.
  repeat split; intros; rewrite H; simpl; try reflexivity; discriminate.
Qed.

(** C9: the lookup, the check, both service operations and both handlers
    leave the rows of the store as they found them, whatever the input and
    whether they return or raise. *)
Theorem hotel_operations_leave_store_unchanged
  (uid hotelId : Z) (req : AuthenticatedRequest) (w : World) :
  db (snd (userRepository.findUserWithTicketTypeByUserId uid w)) = db w
  /\ db (snd (hotelService.isAllowed uid w)) = db w
  /\ db (snd (hotelService.getHotels uid w)) = db w
  /\ db (snd (hotelService.getHotelWithRooms uid hotelId w)) = db w
  /\ db (snd (hotelsController.getHotels req w)) = db w
  /\ db (snd (hotelsController.getHotelWithRooms req w)) = db w.
Proof.
  split; [ apply read_only_findUser | ].
  split; [ apply read_only_isAllowed | ].
  split; [ apply read_only_getHotels | ].
  split; [ apply read_only_getHotelWithRooms | ].
  split.
  - rewrite controller_getHotels_run.
    pose proof (proj1 (read_only_getHotels (userId req) w)) as H.
    destruct (hotelService.getHotels (userId req) w) as [[hs | e] w1]; exact H.
  - rewrite controller_getHotelWithRooms_run.
    pose proof (proj1 (read_only_getHotelWithRooms (userId req) (params_hotelId req) w)) as H.
    destruct (hotelService.getHotelWithRooms (userId req) (params_hotelId req) w)
      as [[hw | [ | | | ]] w1]; exact H.
Qed.

(** ** The statements at work on the sample stores *)

(** With no user row the lookup yields [null] and the check raises. *)
Lemma isAllowed_raises_without_user_row :
  fst (userRepository.findUserWithTicketTypeByUserId 1 w_nobody) = Returns None
  /\ fst (hotelService.isAllowed 1 w_nobody) = Throws TypeError.
Proof. split; reflexivity. Qed.

(** The earlier revision also raised for a user without enrollment, where the
    present one answers [false]. *)
Lemma isAllowed_v0_raises_without_enrollment :
  fst (hotelService_v0.isAllowed 1 w_alice) = Throws TypeError
  /\ fst (hotelService.isAllowed 1 w_alice) = Returns false.
Proof. split; reflexivity. Qed.

(** An allowed user, a hotel written at 1000 and its room written at 5000 and
    updated at 6000: the room entry of the detail carries 5000 and 6000. *)
Lemma detail_room_keeps_own_timestamps :
  fst (hotelService.isAllowed 2 w_bob) = Returns true
  /\ fst (hotelService.getHotelWithRooms 2 7 w_bob)
     = Returns {| hotel := plaza; Rooms := [plaza_101] |}
  /\ room_createdAt plaza_101 <> hotel_createdAt plaza
  /\ room_updatedAt plaza_101 <> hotel_updatedAt plaza.
Proof. repeat split; try reflexivity; discriminate. Qed.

(** The store answers no query: the service raises the failure of the store
    and the list handler answers 403, as it does to a forbidden user. *)
Lemma getHotels_answers_outage_with_forbidden :
  fst (hotelService.getHotels 2 w_outage) = Throws InfrastructureFailure
  /\ fst (hotelsController.getHotels {| userId := 2; params_hotelId := 7 |} w_outage)
     = Returns (Some {| res_status := httpStatus.FORBIDDEN; res_body := StatusText |}).
Proof. split; reflexivity. Qed.

(** On the same store the detail handler finishes without any response. *)
Lemma getHotelWithRooms_sends_nothing_on_outage :
  fst (hotelsController.getHotelWithRooms {| userId := 2; params_hotelId := 7 |} w_outage)
  = Returns None.
Proof. reflexivity. Qed.

(** Bob alone, with his paid ticket that includes the hotel: the equivalence
    of the decision at his record. *)
Lemma isAllowed_iff_paid_and_hostable_bob :
  fst (hotelService.isAllowed 2 w_bob) = Returns true <->
  status (ticket bob_ticket_with_type) = PAID
  /\ isRemote hostable = false /\ includesHotel hostable = true.
Proof.
  exact (proj1 (isAllowed_iff_paid_and_hostable
                  2 w_bob (logged UserFindFirst w_bob)
                  bob_with_enrollment bob_ticket_with_type hostable
                  eq_refl eq_refl eq_refl)).
Defined.

(** Alice alone, found but without enrollment: the check returns [false]. *)
Lemma isAllowed_total_on_alice :
  fst (hotelService.isAllowed 1 w_alice) = Returns false.
Proof.
  exact (proj1 (proj2 (isAllowed_total_on_found_user
                         1 w_alice (logged UserFindFirst w_alice)
                         {| user := alice; incl_Enrollment := [] |} eq_refl))
               eq_refl).
Defined.

(** Alice, who is not allowed, asks for hotel 8, which does not exist: she is
    refused, and only the user query was issued. *)
Lemma eligibility_checked_before_existence_alice :
  hotelService.getHotelWithRooms 1 8 w_alice
  = (Throws ForbiddenError, logged UserFindFirst w_alice)
  /\ fst (hotelService.getHotelWithRooms 1 8 w_alice) <> Throws NotFoundError
  /\ log (snd (hotelService.getHotelWithRooms 1 8 w_alice))
     = (log w_alice ++ [UserFindFirst])%list.
Proof.
  exact (eligibility_checked_before_existence
           1 8 w_alice (logged UserFindFirst w_alice) eq_refl).
Defined.

(** Bob, allowed, lists the hotels of a store without hotels. *)
Lemma getHotels_returns_gateway_list_no_hotel :
  fst (hotelService.getHotels 2 w_bob_no_hotel) = Returns [].
Proof.
  exact (proj2 (getHotels_returns_gateway_list
                  2 w_bob_no_hotel (logged UserFindFirst w_bob_no_hotel) eq_refl)
               eq_refl eq_refl).
Defined.

(** Bob, allowed, asks for hotel 8 where only hotel 7 is stored. *)
Lemma getHotelWithRooms_not_found_iff_no_hotel_bob :
  fst (hotelService.getHotelWithRooms 2 8 w_bob) = Throws NotFoundError
  <-> (forall h, In h (hotels (db w_bob)) -> hotel_id h <> 8).
Proof.
  exact (proj1 (getHotelWithRooms_not_found_iff_no_hotel
                  2 8 w_bob (logged UserFindFirst w_bob) eq_refl eq_refl)).
Defined.

(** Bob, allowed, asks for hotel 7, which has one room. *)
Lemma detail_is_stored_hotel_with_its_stored_rooms_plaza :
  exists rs,
    fst (hotelService.getHotelWithRooms 2 7 w_bob)
    = Returns {| hotel := plaza; Rooms := rs |}
    /\ List.length rs = 1%nat
    /\ Permutation rs (filter (fun r => room_hotelId r =? 7) (rooms (db w_bob)))
    /\ ascending room_id rs.
Proof.
  apply (detail_is_stored_hotel_with_its_stored_rooms
           2 7 w_bob (logged UserFindFirst w_bob) plaza 1).
  - reflexivity.
  - reflexivity.
  - simpl. constructor; [ intros [] | constructor ].
  - simpl. left. reflexivity.
  - reflexivity.
  - reflexivity.
Defined.

(** * Further properties of the same code *)

(** ** The check, case by case *)

(** One run of the check: a rejected lookup, no user row, or a verdict. *)
Lemma isAllowed_run (userId : Z) (w : World) :
  hotelService.isAllowed userId w =
  (if down w UserFindFirst then Throws InfrastructureFailure
   else match index0 (users (db w)) with
        | Some u => Returns (paid_and_hostable (include_Enrollment (db w) u))
        | None => Throws TypeError
        end,
   logged UserFindFirst w).
Proof.
  pose proof (findUser_run userId w) as Hrun.
  destruct (down w UserFindFirst).
  - unfold hotelService.isAllowed, bind. rewrite Hrun. reflexivity.
  - destruct (index0 (users (db w))) as [u | ]; simpl in Hrun.
    + rewrite (isAllowed_found _ _ _ _ Hrun). reflexivity.
    + rewrite (isAllowed_not_found _ _ _ Hrun). reflexivity.
Qed.

Lemma paid_and_hostable_true (u : UserWithEnrollment) :
  paid_and_hostable u = true <->
  exists t ty,
    first_ticket u = Some t /\ incl_TicketType t = Some ty
    /\ status (ticket t) = PAID /\ isRemote ty = false /\ includesHotel ty = true.
Proof.
  unfold paid_and_hostable. split.
  - destruct (first_ticket u) as [t | ]; [ | discriminate ].
    destruct (incl_TicketType t) as [ty | ] eqn:Hty; [ | discriminate ].
    intro H. apply andb_true_iff in H. destruct H as [Hpaid H].
    apply andb_true_iff in H. destruct H as [Hremote Hhotel].
    apply TicketStatus_eqb_eq in Hpaid. apply negb_true_iff in Hremote.
    exists t, ty. repeat split; assumption.
  - intros [t [ty [Ht [Hty [Hpaid [Hremote Hhotel]]]]]].
    rewrite Ht, Hty, Hpaid, Hremote, Hhotel. reflexivity.
Qed.

(** When the check says yes, the store answered and its first user row has an
    eligible first ticket. *)
Lemma isAllowed_true_inv (userId : Z) (w : World) :
  fst (hotelService.isAllowed userId w) = Returns true ->
  down w UserFindFirst = false
  /\ exists u, index0 (users (db w)) = Some u
               /\ paid_and_hostable (include_Enrollment (db w) u) = true.
Proof.
  rewrite isAllowed_run. simpl.
  destruct (down w UserFindFirst); [ discriminate | ].
  destruct (index0 (users (db w))) as [u | ]; [ | discriminate ].
  intro H. split; [ reflexivity | ]. exists u. split; [ reflexivity | congruence ].
Qed.

Lemma getHotels_returns_inv (userId : Z) (w : World) (hs : list Hotel) :
  fst (hotelService.getHotels userId w) = Returns hs ->
  fst (hotelService.isAllowed userId w) = Returns true.
Proof.
  unfold hotelService.getHotels, bind at 1.
  destruct (hotelService.isAllowed userId w) as [[[ | ] | e] w1]; simpl;
    [ reflexivity | discriminate | discriminate ].
Qed.

Lemma getHotelWithRooms_returns_inv (userId hotelId : Z) (w : World) (hw : HotelWithRooms) :
  fst (hotelService.getHotelWithRooms userId hotelId w) = Returns hw ->
  fst (hotelService.isAllowed userId w) = Returns true.
Proof.
  unfold hotelService.getHotelWithRooms, bind at 1.
  destruct (hotelService.isAllowed userId w) as [[[ | ] | e] w1]; simpl;
    [ reflexivity | discriminate | discriminate ].
Qed.

(** ** The gate of the service *)

(** X1: when the check answers [false], [getHotels] raises the forbidden
    error and the only query issued is the user lookup: the hotels are not
    listed, not even read. *)
Theorem getHotels_refuses_before_listing (userId : Z) (w w1 : World) :
  hotelService.isAllowed userId w = (Returns false, w1) ->
  hotelService.getHotels userId w = (Throws ForbiddenError, w1)
  /\ log (snd (hotelService.getHotels userId w)) = (log w ++ [UserFindFirst])%list.
Proof.
  intro Hdenied.
  assert (Hrun : hotelService.getHotels userId w = (Throws ForbiddenError, w1)).
  { unfold hotelService.getHotels, bind. rewrite Hdenied. reflexivity. }
  rewrite Hrun. split; [ reflexivity | ]. simpl.
  rewrite isAllowed_run in Hdenied. inversion Hdenied. reflexivity.
Qed.

(** Alice, without enrollment, lists the hotels. *)
Lemma getHotels_refuses_before_listing_alice :
  hotelService.getHotels 1 w_alice = (Throws ForbiddenError, logged UserFindFirst w_alice)
  /\ log (snd (hotelService.getHotels 1 w_alice)) = (log w_alice ++ [UserFindFirst])%list.
Proof.
  exact (getHotels_refuses_before_listing 1 w_alice (logged UserFindFirst w_alice) eq_refl).
Defined.

(** X2: whenever one of the two service operations returns a value, the store
    answered the user lookup and the first enrollment of its first user row
    has a first ticket that is paid, with a ticket type that is not remote and
    includes the hotel.  No hotel data leaves the service otherwise. *)
Theorem service_returns_only_behind_eligible_ticket (userId : Z) (w : World) :
  (exists hs, fst (hotelService.getHotels userId w) = Returns hs)
  \/ (exists hotelId hw,
        fst (hotelService.getHotelWithRooms userId hotelId w) = Returns hw) ->
  down w UserFindFirst = false
  /\ exists u t ty,
       index0 (users (db w)) = Some u
       /\ first_ticket (include_Enrollment (db w) u) = Some t
       /\ incl_TicketType t = Some ty
       /\ status (ticket t) = PAID
       /\ isRemote ty = false
       /\ includesHotel ty = true.
Proof.
  intro Hret.
  assert (Hallowed : fst (hotelService.isAllowed userId w) = Returns true).
  { destruct Hret as [[hs H] | [hotelId [hw H]]].
    - exact (getHotels_returns_inv _ _ _ H).
    - exact (getHotelWithRooms_returns_inv _ _ _ _ H). }
  destruct (isAllowed_true_inv _ _ Hallowed) as [Hup [u [Hu Hv]]].
  split; [ exact Hup | ].
  apply paid_and_hostable_true in Hv.
  destruct Hv as [t [ty Hv]]. exists u, t, ty. split; [ exact Hu | exact Hv ].
Qed.

(** Bob, alone with his paid ticket, is given the detail of hotel 7. *)
Lemma service_returns_only_behind_eligible_ticket_bob :
  down w_bob UserFindFirst = false
  /\ exists u t ty,
       index0 (users (db w_bob)) = Some u
       /\ first_ticket (include_Enrollment (db w_bob) u) = Some t
       /\ incl_TicketType t = Some ty
       /\ status (ticket t) = PAID
       /\ isRemote ty = false
       /\ includesHotel ty = true.
Proof.
  apply (service_returns_only_behind_eligible_ticket 2 w_bob).
  right. exists 7, {| hotel := plaza; Rooms := [plaza_101] |}. reflexivity.
Defined.

(** X3: a failure of the check ends both service operations with that very
    failure, after the user lookup alone.  A rejected user lookup surfaces as
    the failure of the store and a store without user row as a [TypeError];
    neither is turned into the forbidden or the not-found error. *)
Theorem check_failures_end_the_service (userId hotelId : Z) (w : World) :
  (down w UserFindFirst = true ->
     hotelService.getHotels userId w
     = (Throws InfrastructureFailure, logged UserFindFirst w)
     /\ hotelService.getHotelWithRooms userId hotelId w
        = (Throws InfrastructureFailure, logged UserFindFirst w))
  /\ (down w UserFindFirst = false -> users (db w) = [] ->
     hotelService.getHotels userId w = (Throws TypeError, logged UserFindFirst w)
     /\ hotelService.getHotelWithRooms userId hotelId w
        = (Throws TypeError, logged UserFindFirst w)).
Proof.
  unfold hotelService.getHotels, hotelService.getHotelWithRooms.
  unfold bind at 1 3 5 7. rewrite isAllowed_run.
  split.
  - intro Hdown. rewrite Hdown. split; reflexivity.
  - intros Hup Hnone. rewrite Hup, Hnone. split; reflexivity.
Qed.

(** X4: the repository of hotels is consulted exactly when the check answered
    [true], and then on the world the check left: in every other case the run
    ends where the check ended. *)
Theorem hotel_lookup_runs_iff_allowed (userId hotelId : Z) (w : World) :
  (fst (hotelService.isAllowed userId w) = Returns true ->
     snd (hotelService.getHotels userId w)
     = snd (hotelRepository.findHotels (logged UserFindFirst w))
     /\ snd (hotelService.getHotelWithRooms userId hotelId w)
        = snd (hotelRepository.findHotelWithRoomsById hotelId (logged UserFindFirst w)))
  /\ (fst (hotelService.isAllowed userId w) <> Returns true ->
     snd (hotelService.getHotels userId w) = logged UserFindFirst w
     /\ snd (hotelService.getHotelWithRooms userId hotelId w) = logged UserFindFirst w).
Proof.
  unfold hotelService.getHotels, hotelService.getHotelWithRooms.
  unfold bind at 1 3 5 7.
  pose proof (isAllowed_world userId w) as Hw.
  destruct (hotelService.isAllowed userId w) as [[[ | ] | e] w1];
    simpl in Hw; subst w1; simpl; split; intro H;
    try discriminate; try (exfalso; apply H; reflexivity);
    try (split; reflexivity).
  split.
  - unfold bind, ret.
    destruct (hotelRepository.findHotels (logged UserFindFirst w)) as [[hs | e] w2];
      reflexivity.
  - unfold bind.
    destruct (hotelRepository.findHotelWithRoomsById hotelId (logged UserFindFirst w))
      as [[[hw | ] | e] w2]; reflexivity.
Qed.

(** The store answers the user lookup with a rejection, or has no user row. *)
Lemma check_failures_end_the_service_outage :
  (hotelService.getHotels 2 w_outage
   = (Throws InfrastructureFailure, logged UserFindFirst w_outage)
   /\ hotelService.getHotelWithRooms 2 7 w_outage
      = (Throws InfrastructureFailure, logged UserFindFirst w_outage))
  /\ (hotelService.getHotels 1 w_nobody = (Throws TypeError, logged UserFindFirst w_nobody)
      /\ hotelService.getHotelWithRooms 1 7 w_nobody
         = (Throws TypeError, logged UserFindFirst w_nobody)).
Proof.
  split.
  - exact (proj1 (check_failures_end_the_service 2 7 w_outage) eq_refl).
  - exact (proj2 (check_failures_end_the_service 1 7 w_nobody) eq_refl eq_refl).
Defined.

(** Bob is allowed: both operations go on to the repository of hotels. *)
Lemma hotel_lookup_runs_iff_allowed_bob :
  snd (hotelService.getHotels 2 w_bob)
  = snd (hotelRepository.findHotels (logged UserFindFirst w_bob))
  /\ snd (hotelService.getHotelWithRooms 2 7 w_bob)
     = snd (hotelRepository.findHotelWithRoomsById 7 (logged UserFindFirst w_bob)).
Proof.
  exact (proj1 (hotel_lookup_runs_iff_allowed 2 7 w_bob) eq_refl).
Defined.

(** ** The service, case by case *)

Lemma getHotels_run (userId : Z) (w : World) :
  hotelService.getHotels userId w =
  if down w UserFindFirst then (Throws InfrastructureFailure, logged UserFindFirst w)
  else match index0 (users (db w)) with
       | None => (Throws TypeError, logged UserFindFirst w)
       | Some u =>
           if paid_and_hostable (include_Enrollment (db w) u)
           then hotelRepository.findHotels (logged UserFindFirst w)
           else (Throws ForbiddenError, logged UserFindFirst w)
       end.
Proof.
  unfold hotelService.getHotels, bind at 1. rewrite isAllowed_run.
  destruct (down w UserFindFirst); [ reflexivity | ].
  destruct (index0 (users (db w))) as [u | ]; [ | reflexivity ].
  destruct (paid_and_hostable (include_Enrollment (db w) u)); [ | reflexivity ].
  simpl. unfold bind, ret.
  destruct (hotelRepository.findHotels (logged UserFindFirst w)) as [[hs | e] w2];
    reflexivity.
Qed.

Lemma getHotelWithRooms_run (userId hotelId : Z) (w : World) :
  hotelService.getHotelWithRooms userId hotelId w =
  if down w UserFindFirst then (Throws InfrastructureFailure, logged UserFindFirst w)
  else match index0 (users (db w)) with
       | None => (Throws TypeError, logged UserFindFirst w)
       | Some u =>
           if paid_and_hostable (include_Enrollment (db w) u)
           then match hotelRepository.findHotelWithRoomsById hotelId
                        (logged UserFindFirst w) with
                | (Returns (Some hw), w2) => (Returns hw, w2)
                | (Returns None, w2) => (Throws NotFoundError, w2)
                | (Throws e, w2) => (Throws e, w2)
                end
           else (Throws ForbiddenError, logged UserFindFirst w)
       end.
Proof.
  unfold hotelService.getHotelWithRooms, bind at 1. rewrite isAllowed_run.
  destruct (down w UserFindFirst); [ reflexivity | ].
  destruct (index0 (users (db w))) as [u | ]; [ | reflexivity ].
  destruct (paid_and_hostable (include_Enrollment (db w) u)); [ | reflexivity ].
  simpl. unfold bind.
  destruct (hotelRepository.findHotelWithRoomsById hotelId (logged UserFindFirst w))
    as [[[hw | ] | e] w2]; reflexivity.
Qed.

(** ** The two revisions of the service *)

Lemma isAllowed_v0_run (userId : Z) (w : World) :
  hotelService_v0.isAllowed userId w =
  (if down w UserFindFirst then Throws InfrastructureFailure
   else match index0 (users (db w)) with
        | Some u =>
            match incl_Enrollment (include_Enrollment (db w) u) with
            | [] => Throws TypeError
            | _ :: _ => Returns (paid_and_hostable (include_Enrollment (db w) u))
            end
        | None => Throws TypeError
        end,
   logged UserFindFirst w).
Proof.
  unfold hotelService_v0.isAllowed, bind at 1. rewrite findUser_run.
  destruct (down w UserFindFirst); [ reflexivity | ].
  destruct (index0 (users (db w))) as [u | ]; [ | reflexivity ].
  unfold option_map, paid_and_hostable, first_ticket.
  remember (include_Enrollment (db w) u) as r eqn:Hr. clear Hr.
  unfold member at 1, bind at 1, ret at 1.
  destruct (incl_Enrollment r) as [ | e es]; [ reflexivity | ].
  unfold bind at 1. simpl.
  destruct (index0 (incl_Ticket e)) as [t | ]; [ | reflexivity ].
  destruct (incl_TicketType t) as [ty | ]; [ | reflexivity ].
  unfold bind, ret. simpl.
  destruct (TicketStatus_eqb (status (ticket t)) PAID
            && (negb (isRemote ty) && includesHotel ty)); reflexivity.
Qed.

Lemma getHotels_v0_run (userId : Z) (w : World) :
  hotelService_v0.getHotels userId w =
  if down w UserFindFirst then (Throws InfrastructureFailure, logged UserFindFirst w)
  else match index0 (users (db w)) with
       | None => (Throws TypeError, logged UserFindFirst w)
       | Some u =>
           match incl_Enrollment (include_Enrollment (db w) u) with
           | [] => (Throws TypeError, logged UserFindFirst w)
           | _ :: _ =>
               if paid_and_hostable (include_Enrollment (db w) u)
               then hotelRepository.findHotels (logged UserFindFirst w)
               else (Throws ForbiddenError, logged UserFindFirst w)
           end
       end.
Proof.
  unfold hotelService_v0.getHotels, bind at 1. rewrite isAllowed_v0_run.
  destruct (down w UserFindFirst); [ reflexivity | ].
  destruct (index0 (users (db w))) as [u | ]; [ | reflexivity ].
  destruct (incl_Enrollment (include_Enrollment (db w) u)); [ reflexivity | ].
  destruct (paid_and_hostable (include_Enrollment (db w) u)); [ | reflexivity ].
  cbn [negb]. unfold bind, ret.
  destruct (hotelRepository.findHotels (logged UserFindFirst w)) as [[hs | e0] w2];
    reflexivity.
Qed.

Lemma paid_and_hostable_no_enrollment (u : UserWithEnrollment) :
  incl_Enrollment u = [] -> paid_and_hostable u = false.
Proof.
  intro H. unfold paid_and_hostable, first_ticket. rewrite H. reflexivity.
Qed.

(** X5: the earlier and the present revision of [getHotels] always leave the
    same world, and give the same outcome except in one case: when the user
    row that the lookup finds has no enrollment, the earlier revision raises
    a [TypeError] where the present one raises the forbidden error. *)
Theorem revisions_differ_only_without_enrollment (userId : Z) (w : World) :
  snd (hotelService_v0.getHotels userId w) = snd (hotelService.getHotels userId w)
  /\ ((exists u, down w UserFindFirst = false
                 /\ index0 (users (db w)) = Some u
                 /\ incl_Enrollment (include_Enrollment (db w) u) = []) ->
      fst (hotelService_v0.getHotels userId w) = Throws TypeError
      /\ fst (hotelService.getHotels userId w) = Throws ForbiddenError)
  /\ (~ (exists u, down w UserFindFirst = false
                   /\ index0 (users (db w)) = Some u
                   /\ incl_Enrollment (include_Enrollment (db w) u) = []) ->
      hotelService_v0.getHotels userId w = hotelService.getHotels userId w).
Proof.
  rewrite getHotels_run, getHotels_v0_run.
  destruct (down w UserFindFirst).
  - split; [ reflexivity | ]. split; [ | reflexivity ].
    intros [u [Hup _]]. discriminate.
  - destruct (index0 (users (db w))) as [u | ].
    + destruct (incl_Enrollment (include_Enrollment (db w) u)) as [ | e es] eqn:Hes.
      * rewrite (paid_and_hostable_no_enrollment _ Hes).
        split; [ reflexivity | ]. split; [ split; reflexivity | ].
        intro Hnot. exfalso. apply Hnot. exists u.
        split; [ reflexivity | ]. split; [ reflexivity | exact Hes ].
      * split; [ reflexivity | ]. split; [ | reflexivity ].
        intros [u' [_ [Hu' Hnil]]]. inversion Hu'; subst u'.
        rewrite Hes in Hnil. discriminate.
    + split; [ reflexivity | ]. split; [ | reflexivity ].
      intros [u [_ [Hu _]]]. discriminate.
Qed.

(** Alice alone has no enrollment: here the revisions differ.  Bob alone has
    one: here they agree. *)
Lemma revisions_differ_only_without_enrollment_samples :
  (fst (hotelService_v0.getHotels 1 w_alice) = Throws TypeError
   /\ fst (hotelService.getHotels 1 w_alice) = Throws ForbiddenError)
  /\ hotelService_v0.getHotels 2 w_bob = hotelService.getHotels 2 w_bob.
Proof.
  split.
  - apply (proj1 (proj2 (revisions_differ_only_without_enrollment 1 w_alice))).
    exists alice. repeat split; reflexivity.
  - apply (proj2 (proj2 (revisions_differ_only_without_enrollment 2 w_bob))).
    intros [u [_ [Hu Hnil]]]. inversion Hu; subst u. discriminate Hnil.
Defined.

(** ** What the handlers send *)

Ltac handler_cases w :=
  destruct (down w UserFindFirst) eqn:?;
  [ | destruct (index0 (users (db w))) as [?u | ] eqn:?;
      [ destruct (paid_and_hostable (include_Enrollment (db w) u)) eqn:? | ] ].

(** X6: the handler of [GET /hotels] always sends a response, and its status
    is 200 or 403.  It is 200 exactly when the check answered [true] and the
    store answered the hotel query; a store failure and a store without user
    row are answered 403 like a refusal. *)
Theorem list_handler_always_answers (req : AuthenticatedRequest) (w : World) :
  exists r,
    hotelsController.getHotels req w
    = (Returns (Some r), snd (hotelService.getHotels (userId req) w))
    /\ (res_status r = 200 \/ res_status r = 403)
    /\ (res_status r = 200 <->
        fst (hotelService.isAllowed (userId req) w) = Returns true
        /\ down w HotelFindMany = false).
Proof.
  rewrite controller_getHotels_run, getHotels_run, isAllowed_run.
  handler_cases w; simpl.
  - eexists. split; [ reflexivity | ]. split; [ right; reflexivity | ].
    simpl. split; [ discriminate | intros [H _]; discriminate ].
  - unfold hotelRepository.findHotels, prisma_read. simpl.
    destruct (down w HotelFindMany); simpl.
    + eexists. split; [ reflexivity | ]. split; [ right; reflexivity | ].
      simpl. split; [ discriminate | intros [_ H]; discriminate ].
    + eexists. split; [ reflexivity | ]. split; [ left; reflexivity | ].
      simpl. split; [ intros _; split; reflexivity | reflexivity ].
  - eexists. split; [ reflexivity | ]. split; [ right; reflexivity | ].
    simpl. split; [ discriminate | intros [H _]; discriminate ].
  - eexists. split; [ reflexivity | ]. split; [ right; reflexivity | ].
    simpl. split; [ discriminate | intros [H _]; discriminate ].
Qed.

(** X7: the handler of [GET /hotels/:hotelId] never raises, and what it sends
    has status 200, 403 or 404.  It finishes without sending any response
    exactly when the user lookup was rejected, or the store has no user row,
    or the check answered [true] and the hotel lookup was rejected. *)
Theorem detail_handler_silent_iff (req : AuthenticatedRequest) (w : World) :
  (exists o, fst (hotelsController.getHotelWithRooms req w) = Returns o)
  /\ (fst (hotelsController.getHotelWithRooms req w) = Returns None <->
      down w UserFindFirst = true
      \/ (down w UserFindFirst = false /\ users (db w) = [])
      \/ (fst (hotelService.isAllowed (userId req) w) = Returns true
          /\ down w (HotelFindUnique (params_hotelId req)) = true))
  /\ (forall r, fst (hotelsController.getHotelWithRooms req w) = Returns (Some r) ->
      res_status r = 200 \/ res_status r = 403 \/ res_status r = 404).
Proof.
  rewrite controller_getHotelWithRooms_run, getHotelWithRooms_run, isAllowed_run.
  handler_cases w; simpl.
  - split; [ eexists; reflexivity | ]. split.
    + split; [ intros _; left; reflexivity | reflexivity ].
    + intros r H. discriminate.
  - unfold hotelRepository.findHotelWithRoomsById, prisma_read. simpl.
    destruct (down w (HotelFindUnique (params_hotelId req))); simpl.
    + split; [ eexists; reflexivity | ]. split.
      * split; [ intros _; right; right; split; reflexivity | reflexivity ].
      * intros r H. discriminate.
    + destruct (find (fun h => hotel_id h =? params_hotelId req) (hotels (db w)));
        simpl.
      * split; [ eexists; reflexivity | ]. split.
        -- split; [ discriminate | ].
           intros [H | [[_ H] | [_ H]]]; try discriminate.
           destruct (users (db w)); discriminate.
        -- intros r H. inversion H. left. reflexivity.
      * split; [ eexists; reflexivity | ]. split.
        -- split; [ discriminate | ].
           intros [H | [[_ H] | [_ H]]]; try discriminate.
           destruct (users (db w)); discriminate.
        -- intros r H. inversion H. right. right. reflexivity.
  - split; [ eexists; reflexivity | ]. split.
    + split; [ discriminate | ].
      intros [H | [[_ H] | [H _]]]; try discriminate.
      destruct (users (db w)); discriminate.
    + intros r H. inversion H. right. left. reflexivity.
  - split; [ eexists; reflexivity | ]. split.
    + split; [ intros _; right; left; split; [ reflexivity | ] | reflexivity ].
      destruct (users (db w)); [ reflexivity | discriminate ].
    + intros r H. discriminate.
Qed.

(** ** What the check looks at *)

(** X8: the verdict depends on the first ticket of the first enrollment of the
    record alone: two lookups whose records have the same first ticket get
    the same verdict, whatever further enrollments and tickets the records
    hold and whatever user ids were asked. *)
Theorem verdict_depends_on_first_ticket_only
  (userId userId' : Z) (w w1 w' w1' : World) (u u' : UserWithEnrollment) :
  userRepository.findUserWithTicketTypeByUserId userId w = (Returns (Some u), w1) ->
  userRepository.findUserWithTicketTypeByUserId userId' w' = (Returns (Some u'), w1') ->
  first_ticket u = first_ticket u' ->
  fst (hotelService.isAllowed userId w) = fst (hotelService.isAllowed userId' w').
Proof.
  intros Hu Hu' Hsame.
  rewrite (isAllowed_found _ _ _ _ Hu), (isAllowed_found _ _ _ _ Hu').
  rewrite Hsame. reflexivity.
Qed.

(** Bob with a reserved first ticket: a paid second ticket changes nothing,
    he is refused with it as without it. *)
Lemma verdict_depends_on_first_ticket_only_bob :
  fst (hotelService.isAllowed 2 w_bob_reserved_then_paid)
  = fst (hotelService.isAllowed 2 w_bob_reserved_only)
  /\ fst (hotelService.isAllowed 2 w_bob_reserved_only) = Returns false.
Proof.
  split; [ | reflexivity ].
  exact (verdict_depends_on_first_ticket_only
           2 2 w_bob_reserved_then_paid (logged UserFindFirst w_bob_reserved_then_paid)
           w_bob_reserved_only (logged UserFindFirst w_bob_reserved_only)
           _ _ eq_refl eq_refl eq_refl).
Defined.

(** X9: the record the lookup returns is that of the first user row, and it is
    consistent: its enrollments are stored enrollments of that user, the
    tickets of each are stored tickets of that enrollment, and a ticket type,
    when present, is the stored type the ticket refers to. *)
Theorem lookup_record_is_first_users_own_chain
  (userId : Z) (w w1 : World) (r : UserWithEnrollment) :
  userRepository.findUserWithTicketTypeByUserId userId w = (Returns (Some r), w1) ->
  index0 (users (db w)) = Some (user r)
  /\ (forall e, In e (incl_Enrollment r) ->
        In (enrollment e) (enrollments (db w))
        /\ enrollment_userId (enrollment e) = user_id (user r)
        /\ (forall t, In t (incl_Ticket e) ->
              In (ticket t) (tickets (db w))
              /\ ticket_enrollmentId (ticket t) = enrollment_id (enrollment e)
              /\ (forall ty, incl_TicketType t = Some ty ->
                    In ty (ticketTypes (db w))
                    /\ ticketType_id ty = ticket_ticketTypeId (ticket t)))).
Proof.
  rewrite findUser_run.
  destruct (down w UserFindFirst); [ discriminate | ].
  destruct (index0 (users (db w))) as [u | ]; [ | discriminate ].
  intro H. inversion H; subst r w1. clear H.
  split; [ reflexivity | ].
  intros e He. simpl in He.
  apply in_map_iff in He. destruct He as [e0 [He0 Hin]]. subst e.
  apply filter_In in Hin. destruct Hin as [Hin Hu]. apply Z.eqb_eq in Hu.
  split; [ exact Hin | ]. split; [ exact Hu | ].
  intros t Ht. simpl in Ht.
  apply in_map_iff in Ht. destruct Ht as [t0 [Ht0 Htin]]. subst t.
  apply filter_In in Htin. destruct Htin as [Htin He]. apply Z.eqb_eq in He.
  split; [ exact Htin | ]. split; [ exact He | ].
  intros ty Hty. simpl in Hty.
  apply find_some in Hty. destruct Hty as [Hty Hid]. apply Z.eqb_eq in Hid.
  split; assumption.
Qed.

(** The record found for Bob alone. *)
Lemma lookup_record_is_first_users_own_chain_bob :
  index0 (users (db w_bob)) = Some (user bob_with_enrollment)
  /\ (forall e, In e (incl_Enrollment bob_with_enrollment) ->
        In (enrollment e) (enrollments (db w_bob))
        /\ enrollment_userId (enrollment e) = user_id (user bob_with_enrollment)
        /\ (forall t, In t (incl_Ticket e) ->
              In (ticket t) (tickets (db w_bob))
              /\ ticket_enrollmentId (ticket t) = enrollment_id (enrollment e)
              /\ (forall ty, incl_TicketType t = Some ty ->
                    In ty (ticketTypes (db w_bob))
                    /\ ticketType_id ty = ticket_ticketTypeId (ticket t)))).
Proof.
  exact (lookup_record_is_first_users_own_chain
           2 w_bob (logged UserFindFirst w_bob) bob_with_enrollment eq_refl).
Defined.

(** ** Requests do not influence each other *)

Section HistoryBlind.

Context {A B : Type}.

Lemma same_store_refl (w : World) : same_store w w.
Proof. split; reflexivity. Qed.

Lemma same_store_logged (q : Query) (w w' : World) :
  same_store w w' -> same_store (logged q w) (logged q w').
Proof. intros [Hdb Hdown]. split; simpl; assumption. Qed.

Lemma history_blind_ret (a : A) : history_blind (ret a).
Proof. intros w w' H. split; [ reflexivity | exact H ]. Qed.

Lemma history_blind_throw (e : Error) : history_blind (@throw A e).
Proof. intros w w' H. split; [ reflexivity | exact H ]. Qed.

Lemma history_blind_prisma_read (q : Query) (read : Database -> A) :
  history_blind (prisma_read q read).
Proof.
  intros w w' H. pose proof (same_store_logged q _ _ H) as Hlogged.
  destruct H as [Hdb Hdown]. unfold prisma_read.
  rewrite (Hdown q), Hdb.
  destruct (down w' q); split; simpl; auto.
Qed.

Lemma history_blind_member (o : option A) (f : A -> B) : history_blind (member o f).
Proof. destruct o; intros w w' H; split; simpl; auto. Qed.

Lemma history_blind_bind (c : M A) (k : A -> M B) :
  history_blind c -> (forall a, history_blind (k a)) -> history_blind (bind c k).
Proof.
  intros Hc Hk w w' H. unfold bind.
  destruct (Hc w w' H) as [Hout Hstore].
  destruct (c w) as [[a | e] w1], (c w') as [[a' | e'] w1']; simpl in *;
    try discriminate.
  - inversion Hout; subst a'. apply Hk. exact Hstore.
  - inversion Hout; subst e'. split; [ reflexivity | exact Hstore ].
Qed.

Lemma history_blind_try_catch (body : M A) (handler : Error -> M A) :
  history_blind body -> (forall e, history_blind (handler e)) ->
  history_blind (try_catch body handler).
Proof.
  intros Hb Hh w w' H. unfold try_catch.
  destruct (Hb w w' H) as [Hout Hstore].
  destruct (body w) as [[a | e] w1], (body w') as [[a' | e'] w1']; simpl in *;
    try discriminate.
  - inversion Hout; subst a'. split; [ reflexivity | exact Hstore ].
  - inversion Hout; subst e'. apply Hh. exact Hstore.
Qed.

Lemma read_only_same_store (c : M A) (w : World) :
  read_only c -> same_store (snd (c w)) w.
Proof.
  intro Hc. destruct (Hc w) as [Hdb Hdown].
  split; [ exact Hdb | ]. intro q. rewrite Hdown. reflexivity.
Qed.

End HistoryBlind.

Ltac blind_step :=
  first [ apply history_blind_bind; [ | intro ]
        | apply history_blind_try_catch; [ | intro ]
        | apply history_blind_ret
        | apply history_blind_throw
        | apply history_blind_prisma_read
        | apply history_blind_member ].

Lemma history_blind_isAllowed (userId : Z) : history_blind (hotelService.isAllowed userId).
Proof.
  unfold hotelService.isAllowed, userRepository.findUserWithTicketTypeByUserId.
  apply history_blind_bind; [ apply history_blind_prisma_read | intro u ].
  apply history_blind_bind; [ apply history_blind_member | intro es ].
  destruct (opt_index0 (opt_member (index0 es) incl_Ticket)) as [t | ].
  - destruct (incl_TicketType t) as [ty | ].
    + apply history_blind_bind; [ apply history_blind_member | intro s ].
      destruct (negb _); blind_step.
    + blind_step.
  - blind_step.
Qed.

Lemma history_blind_getHotels (userId : Z) : history_blind (hotelService.getHotels userId).
Proof.
  unfold hotelService.getHotels.
  apply history_blind_bind; [ apply history_blind_isAllowed | intro allowed ].
  destruct (negb allowed); [ blind_step | ].
  unfold hotelRepository.findHotels. repeat blind_step.
Qed.

Lemma history_blind_getHotelWithRooms (userId hotelId : Z) :
  history_blind (hotelService.getHotelWithRooms userId hotelId).
Proof.
  unfold hotelService.getHotelWithRooms.
  apply history_blind_bind; [ apply history_blind_isAllowed | intro allowed ].
  destruct (negb allowed); [ blind_step | ].
  unfold hotelRepository.findHotelWithRoomsById.
  apply history_blind_bind; [ apply history_blind_prisma_read | intros [hw | ] ];
    blind_step.
Qed.

Lemma history_blind_list_handler (req : AuthenticatedRequest) :
  history_blind (hotelsController.getHotels req).
Proof.
  unfold hotelsController.getHotels.
  apply history_blind_try_catch; [ | intro e; blind_step ].
  apply history_blind_bind; [ apply history_blind_getHotels | intro hs; blind_step ].
Qed.

Lemma history_blind_detail_handler (req : AuthenticatedRequest) :
  history_blind (hotelsController.getHotelWithRooms req).
Proof.
  unfold hotelsController.getHotelWithRooms.
  apply history_blind_try_catch.
  - apply history_blind_bind;
      [ apply history_blind_getHotelWithRooms | intro hw; blind_step ].
  - intro e.
    destruct (Error_name e =? "ForbiddenError")%string; [ blind_step | ].
    destruct (Error_name e =? "NotFoundError")%string; blind_step.
Qed.

Lemma read_only_list_handler (req : AuthenticatedRequest) :
  read_only (hotelsController.getHotels req).
Proof.
  unfold hotelsController.getHotels.
  apply read_only_try_catch; [ | intro e; frame_step ].
  apply read_only_bind; [ apply read_only_getHotels | intro hs; frame_step ].
Qed.

Lemma read_only_detail_handler (req : AuthenticatedRequest) :
  read_only (hotelsController.getHotelWithRooms req).
Proof.
  unfold hotelsController.getHotelWithRooms.
  apply read_only_try_catch.
  - apply read_only_bind;
      [ apply read_only_getHotelWithRooms | intro hw; frame_step ].
  - intro e.
    destruct (Error_name e =? "ForbiddenError")%string; [ frame_step | ].
    destruct (Error_name e =? "NotFoundError")%string; frame_step.
Qed.

(** X10: what a handler sends does not depend on the requests served before
    it: after any run of either handler, for any request, each handler gives
    the response it would have given on the world before that run. *)
Theorem responses_do_not_depend_on_earlier_requests
  (earlier req : AuthenticatedRequest) (w : World) :
  fst (hotelsController.getHotels req (snd (hotelsController.getHotels earlier w)))
  = fst (hotelsController.getHotels req w)
  /\ fst (hotelsController.getHotels req
            (snd (hotelsController.getHotelWithRooms earlier w)))
     = fst (hotelsController.getHotels req w)
  /\ fst (hotelsController.getHotelWithRooms req
            (snd (hotelsController.getHotels earlier w)))
     = fst (hotelsController.getHotelWithRooms req w)
  /\ fst (hotelsController.getHotelWithRooms req
            (snd (hotelsController.getHotelWithRooms earlier w)))
     = fst (hotelsController.getHotelWithRooms req w).
Proof.
  repeat split.
  - apply history_blind_list_handler, read_only_same_store, read_only_list_handler.
  - apply history_blind_list_handler, read_only_same_store, read_only_detail_handler.
  - apply history_blind_detail_handler, read_only_same_store, read_only_list_handler.
  - apply history_blind_detail_handler, read_only_same_store, read_only_detail_handler.
Qed.

(** ** The schema of the hotel id *)

Lemma all_digits_string_of_uint (d : Decimal.uint) :
  all_digits (DecimalString.NilEmpty.string_of_uint d) = true.
Proof. induction d; simpl; auto. Qed.

Lemma is_digit_inv (c : ascii) :
  is_digit c = true ->
  c = "0"%char \/ c = "1"%char \/ c = "2"%char \/ c = "3"%char \/ c = "4"%char
  \/ c = "5"%char \/ c = "6"%char \/ c = "7"%char \/ c = "8"%char \/ c = "9"%char.
Proof.
  destruct c as [[ | ] [ | ] [ | ] [ | ] [ | ] [ | ] [ | ] [ | ]];
    vm_compute; intro H; try discriminate H; tauto.
Qed.

Lemma all_digits_numeral (s : string) :
  all_digits s = true ->
  exists d, s = DecimalString.NilEmpty.string_of_uint d.
Proof.
  induction s as [ | c s IH]; simpl.
  - intros _. exists Decimal.Nil. reflexivity.
  - intro H. apply andb_true_iff in H. destruct H as [Hc Hs].
    destruct (IH Hs) as [d Hd]. subst s.
    destruct (is_digit_inv c Hc)
      as [H | [H | [H | [H | [H | [H | [H | [H | [H | H]]]]]]]]]; subst c.
    + exists (Decimal.D0 d). reflexivity.
    + exists (Decimal.D1 d). reflexivity.
    + exists (Decimal.D2 d). reflexivity.
    + exists (Decimal.D3 d). reflexivity.
    + exists (Decimal.D4 d). reflexivity.
    + exists (Decimal.D5 d). reflexivity.
    + exists (Decimal.D6 d). reflexivity.
    + exists (Decimal.D7 d). reflexivity.
    + exists (Decimal.D8 d). reflexivity.
    + exists (Decimal.D9 d). reflexivity.
Qed.

Lemma digits_string_of_uint (d : Decimal.uint) :
  d <> Decimal.Nil -> digits (DecimalString.NilEmpty.string_of_uint d) = true.
Proof.
  intro Hd. pose proof (all_digits_string_of_uint d) as H.
  destruct d; try contradiction; exact H.
Qed.

(** X11: the schema of [hotelId] refuses a missing parameter and accepts a
    string exactly when it is an unsigned decimal numeral, one digit at
    least, leading zeros allowed.  So the decimal writing of every
    non-negative integer is accepted, and that of every negative integer is
    refused. *)
Theorem schema_accepts_exactly_decimal_numerals :
  hotelsSchemas.getHotelWithRoomsSchema None = false
  /\ (forall s,
        hotelsSchemas.getHotelWithRoomsSchema (Some s) = true <->
        exists d, d <> Decimal.Nil /\ s = DecimalString.NilEmpty.string_of_uint d)
  /\ (forall z, 0 <= z ->
        hotelsSchemas.getHotelWithRoomsSchema
          (Some (DecimalString.NilZero.string_of_int (Z.to_int z))) = true)
  /\ (forall z, z < 0 ->
        hotelsSchemas.getHotelWithRoomsSchema
          (Some (DecimalString.NilZero.string_of_int (Z.to_int z))) = false).
Proof.
  split; [ reflexivity | ]. split; [ | split ].
  - intro s. simpl. split.
    + intro H. destruct s as [ | c s]; [ discriminate | ].
      destruct (all_digits_numeral _ H) as [d Hd].
      exists d. split; [ | exact Hd ].
      intro Hnil. subst d. discriminate.
    + intros [d [Hd Hs]]. subst s. apply digits_string_of_uint. exact Hd.
  - intros z Hz. simpl. destruct z as [ | p | p]; [ reflexivity | | lia ].
    simpl. pose proof (DecimalPos.Unsigned.to_uint_nonnil p) as Hp.
    unfold DecimalString.NilZero.string_of_uint.
    destruct (Pos.to_uint p) eqn:Hd; try contradiction;
      rewrite <- Hd; apply digits_string_of_uint; rewrite Hd; discriminate.
  - intros z Hz. destruct z as [ | p | p]; [ lia | lia | ]. reflexivity.
Qed.

(** X12: from the handler of [GET /hotels/:hotelId] a 403 means a refusal and
    nothing else: it is sent exactly when the check answered [false].  A 404
    is sent only after the check answered [true], so a refused caller never
    learns whether a hotel id exists. *)
Theorem detail_handler_403_iff_refused (req : AuthenticatedRequest) (w : World) :
  ((exists body,
      fst (hotelsController.getHotelWithRooms req w)
      = Returns (Some {| res_status := httpStatus.FORBIDDEN; res_body := body |}))
   <-> fst (hotelService.isAllowed (userId req) w) = Returns false)
  /\ ((exists body,
         fst (hotelsController.getHotelWithRooms req w)
         = Returns (Some {| res_status := httpStatus.NOT_FOUND; res_body := body |}))
      -> fst (hotelService.isAllowed (userId req) w) = Returns true).
Proof.
  rewrite controller_getHotelWithRooms_run, getHotelWithRooms_run, isAllowed_run.
  handler_cases w; simpl.
  - split; [ split | ]; [ intros [body H] | intro H | intros [body H] ]; discriminate.
  - unfold hotelRepository.findHotelWithRoomsById, prisma_read. simpl.
    destruct (down w (HotelFindUnique (params_hotelId req))); simpl;
      [ | destruct (find (fun h => hotel_id h =? params_hotelId req) (hotels (db w)));
          simpl ];
      (split; [ split | ];
       [ intros [body H]; discriminate | intro H; discriminate | reflexivity ]).
  - split; [ split | ].
    + reflexivity.
    + intros _. exists StatusText. reflexivity.
    + intros [body H]. discriminate.
  - split; [ split | ]; [ intros [body H] | intro H | intros [body H] ]; discriminate.
Qed.
